(** * jsapi bindings (libs/jsapi/jsbindings.cpp)

    A shallow embedding of the embind shim that exposes Filament's core
    classes to JavaScript, and the properties of it that the design notes
    state.

    The shim consists of
    - [filaweb::Engine], a wrapper struct around a [filament::Engine*];
    - a handful of lambdas around builder methods;
    - three [EMSCRIPTEN_BINDINGS] blocks registering those (and a few engine
      methods directly) under JavaScript names.

    The engine itself lives outside this file.  It is a parameter of the
    development: a handler that answers every native call, may fail, and
    may store through an [Engine**] it was given.  All statements hold for
    every such handler unless they say otherwise. *)

From stdpp Require Import base option list strings gmap.

Open Scope string_scope.

(** ** C++ types and values that cross the binding *)

(** The classes that occur in the file.  [TWrapper] is [filaweb::Engine],
    [TEngine] is [filament::Engine], and [TEngineField] is the type of the
    member [filaweb::Engine::engine], so that a pointer to it is the
    [filament::Engine**] taken at line 68. *)
Inductive ctype :=
  | TVoid | TWrapper | TEngine | TEngineField
  | TSwapChain | TRenderer | TView | TScene | TCamera
  | TRenderableManager | TVertexBuffer | TIndexBuffer
  | TRenderBuilder | TVertexBuilder | TIndexBuilder
  | TEntity | TEntityManager | TFloat3 | TBox.

Global Instance ctype_eq_dec : EqDecision ctype.
Proof. solve_decision. Defined.

(** [filament::Engine::Backend].  The enumeration is declared by the
    engine; this file names one enumerator, [OPENGL], and [other_backend]
    stands for the ones it does not name. *)
Inductive Backend := OPENGL | other_backend (tag : N).

Global Instance Backend_eq_dec : EqDecision Backend.
Proof. solve_decision. Defined.

(** The two value arrays of [EMSCRIPTEN_BINDINGS(value_types)].  A [float]
    is carried as its bit pattern: the shim never computes with it. *)
Definition float := Z.
Record float3 := { x : float; y : float; z : float }.
Record Box := { center : float3; halfExtent : float3 }.

Global Instance float3_eq_dec : EqDecision float3.
Proof. solve_decision. Defined.
Global Instance Box_eq_dec : EqDecision Box.
Proof. solve_decision. Defined.

(** Values as a call site has them.  A pointer is an address tagged with its
    pointee type; address [0] is [nullptr].  A C++ reference is carried as
    the pointer to the same object, so [*p] and [&r] do not change the
    value.  Arguments are recorded as written at the call site; conversions
    to a callee's parameter types belong to declarations outside the file. *)
Inductive value :=
  | VVoid
  | VBool (b : bool)
  | VInt (n : Z)
  | VBackend (b : Backend)
  | VEntity (id : N)
  | VBox (b : Box)
  | VPtr (t : ctype) (a : N).

Global Instance value_eq_dec : EqDecision value.
Proof. solve_decision. Defined.

Definition nullptr : value := VPtr TVoid 0.

(** ** Functions: those of the engine, and those defined in the file *)

(** What the engine can create and destroy. *)
Inductive resource :=
  | REngine | RSwapChain | RRenderer | RView | RScene | RCamera
  | RVertexBuffer | RIndexBuffer | REntity.

Global Instance resource_eq_dec : EqDecision resource.
Proof. solve_decision. Defined.

(** Engine functions the file calls or binds.  [filament::Engine::destroy]
    is overloaded: [NEngine_destroy] is the static one taking [Engine**],
    [NEngine_destroy_SwapChain] the member taking [SwapChain*], and so on
    for the overloads the file selects by the type of its argument. *)
Inductive native :=
  | NEngine_create
  | NEngine_destroy
  | NEngine_createSwapChain
  | NEngine_createRenderer
  | NEngine_createView
  | NEngine_createScene
  | NEngine_createCamera
  | NEngine_destroy_SwapChain
  | NEngine_destroy_Renderer
  | NEngine_destroy_View
  | NEngine_destroy_Scene
  | NEngine_destroy_Camera
  | NEngine_destroy_Entity
  | NEngine_destroy_VertexBuffer
  | NRenderer_render
  | NView_setScene
  | NView_setCamera
  | NScene_addEntity
  | NRenderBuilder_new
  | NRenderBuilder_build
  | NRenderBuilder_boundingBox
  | NRenderBuilder_culling
  | NRenderBuilder_receiveShadows
  | NRenderBuilder_castShadows
  | NVertexBuilder_new
  | NVertexBuilder_build
  | NVertexBuilder_vertexCount
  | NVertexBuilder_bufferCount
  | NIndexBuilder_new
  | NIndexBuilder_build
  | NEntityManager_get
  | NEntityManager_create
  | NEntityManager_destroy.

Global Instance native_eq_dec : EqDecision native.
Proof. solve_decision. Defined.

(** Members of [struct filaweb::Engine] (lines 64-117). *)
Inductive member_fn :=
  | M_create | M_destroy
  | M_createSwapChain | M_destroySwapChain
  | M_createRenderer | M_destroyRenderer
  | M_createView | M_destroyView
  | M_createScene | M_destroyScene
  | M_createCamera | M_destroyCamera
  | M_destroyEntity | M_destroyVertexBuffer.

(** The lambdas of the binding blocks, named by class and exposed name. *)
Inductive lambda :=
  | L_RenderBuilder_build | L_RenderBuilder_boundingBox
  | L_RenderBuilder_culling | L_RenderBuilder_receiveShadows
  | L_RenderBuilder_castShadows | L_RenderableManager_Builder
  | L_VertexBuilder_build | L_VertexBuilder_vertexCount
  | L_VertexBuilder_bufferCount | L_VertexBuffer_Builder
  | L_IndexBuilder_build | L_IndexBuffer_Builder
  | L_EntityManager_get.

(** What a registration binds a name to. *)
Inductive symbol :=
  | Member (m : member_fn)
  | Lambda (l : lambda)
  | Native (n : native).

Global Instance member_fn_eq_dec : EqDecision member_fn.
Proof. solve_decision. Defined.
Global Instance lambda_eq_dec : EqDecision lambda.
Proof. solve_decision. Defined.
Global Instance symbol_eq_dec : EqDecision symbol.
Proof. solve_decision. Defined.

(** ** Invocations from the scripting side

    One constructor per exposed function, carrying the arguments the caller
    supplies, receiver first.  Pointers arrive as addresses; their types are
    those of the bound function's signature. *)
Inductive invocation :=
  | Js_Engine_create
  | Js_Engine_destroy (engine : N)
  | Js_Engine_createSwapChain (this : N)
  | Js_Engine_destroySwapChain (this sc : N)
  | Js_Engine_createRenderer (this : N)
  | Js_Engine_destroyRenderer (this renderer : N)
  | Js_Engine_createView (this : N)
  | Js_Engine_destroyView (this view : N)
  | Js_Engine_createScene (this : N)
  | Js_Engine_destroyScene (this scene : N)
  | Js_Engine_createCamera (this : N)
  | Js_Engine_destroyCamera (this camera : N)
  | Js_Engine_destroyEntity (this entity : N)
  | Js_Engine_destroyVertexBuffer (this vb : N)
  | Js_Renderer_render (this view : N)
  | Js_View_setScene (this scene : N)
  | Js_View_setCamera (this camera : N)
  | Js_Scene_addEntity (this entity : N)
  | Js_RenderBuilder_build (builder engine entity : N)
  | Js_RenderBuilder_boundingBox (builder : N) (box : Box)
  | Js_RenderBuilder_culling (builder : N) (enable : bool)
  | Js_RenderBuilder_receiveShadows (builder : N) (enable : bool)
  | Js_RenderBuilder_castShadows (builder : N) (enable : bool)
  | Js_RenderableManager_Builder (n : Z)
  | Js_VertexBuilder_build (builder engine : N)
  | Js_VertexBuilder_vertexCount (builder : N) (count : Z)
  | Js_VertexBuilder_bufferCount (builder : N) (count : Z)
  | Js_VertexBuffer_Builder
  | Js_IndexBuilder_build (builder engine : N)
  | Js_IndexBuffer_Builder
  | Js_EntityManager_get
  | Js_EntityManager_create (this : N)
  | Js_EntityManager_destroy (this entity : N).

(** The argument list of an invocation. *)
Definition args_of (c : invocation) : list value :=
  match c with
  | Js_Engine_create => []
  | Js_Engine_destroy e => [VPtr TWrapper e]
  | Js_Engine_createSwapChain this => [VPtr TWrapper this]
  | Js_Engine_destroySwapChain this sc => [VPtr TWrapper this; VPtr TSwapChain sc]
  | Js_Engine_createRenderer this => [VPtr TWrapper this]
  | Js_Engine_destroyRenderer this r => [VPtr TWrapper this; VPtr TRenderer r]
  | Js_Engine_createView this => [VPtr TWrapper this]
  | Js_Engine_destroyView this v => [VPtr TWrapper this; VPtr TView v]
  | Js_Engine_createScene this => [VPtr TWrapper this]
  | Js_Engine_destroyScene this sc => [VPtr TWrapper this; VPtr TScene sc]
  | Js_Engine_createCamera this => [VPtr TWrapper this]
  | Js_Engine_destroyCamera this cam => [VPtr TWrapper this; VPtr TCamera cam]
  | Js_Engine_destroyEntity this en => [VPtr TWrapper this; VEntity en]
  | Js_Engine_destroyVertexBuffer this vb => [VPtr TWrapper this; VPtr TVertexBuffer vb]
  | Js_Renderer_render this v => [VPtr TRenderer this; VPtr TView v]
  | Js_View_setScene this sc => [VPtr TView this; VPtr TScene sc]
  | Js_View_setCamera this cam => [VPtr TView this; VPtr TCamera cam]
  | Js_Scene_addEntity this en => [VPtr TScene this; VEntity en]
  | Js_RenderBuilder_build b e en => [VPtr TRenderBuilder b; VPtr TWrapper e; VEntity en]
  | Js_RenderBuilder_boundingBox b box => [VPtr TRenderBuilder b; VBox box]
  | Js_RenderBuilder_culling b on => [VPtr TRenderBuilder b; VBool on]
  | Js_RenderBuilder_receiveShadows b on => [VPtr TRenderBuilder b; VBool on]
  | Js_RenderBuilder_castShadows b on => [VPtr TRenderBuilder b; VBool on]
  | Js_RenderableManager_Builder n => [VInt n]
  | Js_VertexBuilder_build b e => [VPtr TVertexBuilder b; VPtr TWrapper e]
  | Js_VertexBuilder_vertexCount b n => [VPtr TVertexBuilder b; VInt n]
  | Js_VertexBuilder_bufferCount b n => [VPtr TVertexBuilder b; VInt n]
  | Js_VertexBuffer_Builder => []
  | Js_IndexBuilder_build b e => [VPtr TIndexBuilder b; VPtr TWrapper e]
  | Js_IndexBuffer_Builder => []
  | Js_EntityManager_get => []
  | Js_EntityManager_create this => [VPtr TEntityManager this]
  | Js_EntityManager_destroy this en => [VPtr TEntityManager this; VEntity en]
  end.

(** The configuration functions of the builders, each with its argument,
    and the invocation that applies one to a builder. *)
Inductive setting :=
  | boundingBox (box : Box)
  | culling (enable : bool)
  | receiveShadows (enable : bool)
  | castShadows (enable : bool)
  | vertexCount (count : Z)
  | bufferCount (count : Z).

Definition builder_of (x : setting) : ctype :=
  match x with
  | vertexCount _ | bufferCount _ => TVertexBuilder
  | _ => TRenderBuilder
  end.

Definition configure (x : setting) (builder : N) : invocation :=
  match x with
  | boundingBox box => Js_RenderBuilder_boundingBox builder box
  | culling on => Js_RenderBuilder_culling builder on
  | receiveShadows on => Js_RenderBuilder_receiveShadows builder on
  | castShadows on => Js_RenderBuilder_castShadows builder on
  | vertexCount n => Js_VertexBuilder_vertexCount builder n
  | bufferCount n => Js_VertexBuilder_bufferCount builder n
  end.

(** The function an invocation reaches. *)
Definition symbol_of (c : invocation) : symbol :=
  match c with
  | Js_Engine_create => Member M_create
  | Js_Engine_destroy _ => Member M_destroy
  | Js_Engine_createSwapChain _ => Member M_createSwapChain
  | Js_Engine_destroySwapChain _ _ => Member M_destroySwapChain
  | Js_Engine_createRenderer _ => Member M_createRenderer
  | Js_Engine_destroyRenderer _ _ => Member M_destroyRenderer
  | Js_Engine_createView _ => Member M_createView
  | Js_Engine_destroyView _ _ => Member M_destroyView
  | Js_Engine_createScene _ => Member M_createScene
  | Js_Engine_destroyScene _ _ => Member M_destroyScene
  | Js_Engine_createCamera _ => Member M_createCamera
  | Js_Engine_destroyCamera _ _ => Member M_destroyCamera
  | Js_Engine_destroyEntity _ _ => Member M_destroyEntity
  | Js_Engine_destroyVertexBuffer _ _ => Member M_destroyVertexBuffer
  | Js_Renderer_render _ _ => Native NRenderer_render
  | Js_View_setScene _ _ => Native NView_setScene
  | Js_View_setCamera _ _ => Native NView_setCamera
  | Js_Scene_addEntity _ _ => Native NScene_addEntity
  | Js_RenderBuilder_build _ _ _ => Lambda L_RenderBuilder_build
  | Js_RenderBuilder_boundingBox _ _ => Lambda L_RenderBuilder_boundingBox
  | Js_RenderBuilder_culling _ _ => Lambda L_RenderBuilder_culling
  | Js_RenderBuilder_receiveShadows _ _ => Lambda L_RenderBuilder_receiveShadows
  | Js_RenderBuilder_castShadows _ _ => Lambda L_RenderBuilder_castShadows
  | Js_RenderableManager_Builder _ => Lambda L_RenderableManager_Builder
  | Js_VertexBuilder_build _ _ => Lambda L_VertexBuilder_build
  | Js_VertexBuilder_vertexCount _ _ => Lambda L_VertexBuilder_vertexCount
  | Js_VertexBuilder_bufferCount _ _ => Lambda L_VertexBuilder_bufferCount
  | Js_VertexBuffer_Builder => Lambda L_VertexBuffer_Builder
  | Js_IndexBuilder_build _ _ => Lambda L_IndexBuilder_build
  | Js_IndexBuffer_Builder => Lambda L_IndexBuffer_Builder
  | Js_EntityManager_get => Lambda L_EntityManager_get
  | Js_EntityManager_create _ => Native NEntityManager_create
  | Js_EntityManager_destroy _ _ => Native NEntityManager_destroy
  end.

(** ** Effects *)

(** What an execution leaves in the log: calls into the engine, and what
    happens to the one piece of memory this file defines, a wrapper with
    its [engine] member.  [EvAlloc] is the storage a new-expression obtains,
    [EvNew] the initialisation of the member, [EvFree] the storage given
    back when the initialiser failed, [EvRead] a read of the member. *)
Inductive event :=
  | EvCall (f : native) (args : list value)
  | EvNew (a : N) (p : N)
  | EvRead (a : N)
  | EvAlloc (a : N)
  | EvFree (a : N).

Global Instance event_eq_dec : EqDecision event.
Proof. solve_decision. Defined.

Definition is_call (e : event) : bool :=
  match e with EvCall _ _ => true | _ => false end.

Definition calls (l : list event) : list event := List.filter is_call l.
Definition own_accesses (l : list event) : list event :=
  List.filter (λ e, negb (is_call e)) l.

(** The wrappers alive, each with the [filament::Engine*] it holds. *)
Abbreviation heap := (gmap N N).

(** The address in a pointer.  The engine's functions are declared to
    return pointers where the file stores or forwards one; an answer of
    another shape cannot arise in C++ and reads as null. *)
Definition address (v : value) : N :=
  match v with
  | VPtr _ a => a
  | _ => 0%N
  end.

(** Stores through the [Engine**] arguments of a call: the only way the
    engine reaches a wrapper. *)
Definition store_through (args : list value) (o : option N)
    (h : heap) : heap :=
  match o with
  | None => h
  | Some v =>
      foldr (λ arg h,
               match arg with
               | VPtr TEngineField a => alter (λ _, v) a h
               | _ => h
               end) h args
  end.

(** Where [new] puts a wrapper: an address that holds none and is not
    null.  Allocation does not fail. *)
Definition fresh_addr (h : heap) : N := fresh ({[0%N]} ∪ dom h).

Section Shim.

(** The engine: its state, its failures, and its answer to a call.  It
    sees the wrappers (to read through a pointer it received); [stored]
    is what it leaves behind a received [Engine**], if anything. *)
Variable W : Type.
Variable E : Type.

Record reply := Reply {
  result : value + E;
  stored : option N;
  next : W }.

Variable engine : native → list value → heap → W → reply.

Record state := State {
  wrappers : heap;
  world : W;
  log : list event }.

(** [Undefined] is undefined behaviour in this file's own code: reading
    the member of what is not a wrapper.  What a call through the stored
    engine pointer or through a builder pointer does, and whether it is
    defined at all, is the engine's to answer. *)
Inductive outcome (A : Type) :=
  | Ok (a : A) (s : state)
  | Raise (e : E) (s : state)
  | Undefined.
Arguments Ok {A} a s.
Arguments Raise {A} e s.
Arguments Undefined {A}.

Definition M (A : Type) : Type := state → outcome A.

#[local] Instance M_ret : MRet M := λ A a s, Ok a s.
#[local] Instance M_bind : MBind M := λ A B k m s,
  match m s with
  | Ok a s' => k a s'
  | Raise e s' => Raise e s'
  | Undefined => Undefined
  end.

(** A call into the engine.  Nothing catches: a failure leaves the
    caller at once. *)
Definition call (f : native) (args : list value) : M value := λ s,
  let r := engine f args (wrappers s) (world s) in
  let s' := State (store_through args (stored r) (wrappers s)) (next r)
                  (app (log s) [EvCall f args]) in
  match result r with
  | inl v => Ok v s'
  | inr e => Raise e s'
  end.

(** [new Engine { init }].  The new-expression obtains the storage, then
    evaluates the initialiser; the member is written with its value, or,
    if the initialiser fails, the storage is given back and the failure
    goes on to the caller.  A block becomes a wrapper when its member is
    written. *)
Definition new_Engine (init : M value) : M value := λ s,
  let a := fresh_addr (wrappers s) in
  match init (State (wrappers s) (world s) (app (log s) [EvAlloc a])) with
  | Ok v s1 =>
      Ok (VPtr TWrapper a)
         (State (<[a := address v]> (wrappers s1)) (world s1)
                (app (log s1) [EvNew a (address v)]))
  | Raise e s1 =>
      Raise e (State (wrappers s1) (world s1) (app (log s1) [EvFree a]))
  | Undefined => Undefined
  end.

(** [w->engine] *)
Definition get_engine (w : N) : M value := λ s,
  match wrappers s !! w with
  | Some a =>
      Ok (VPtr TEngine a)
         (State (wrappers s) (world s) (app (log s) [EvRead w]))
  | None => Undefined
  end.

(** [&w->engine]: the member is the first of a standard-layout struct. *)
Definition addr_engine (w : N) : value := VPtr TEngineField w.

(** ** [struct filaweb::Engine]

    A function declared [void] returns [VVoid] whatever the engine
    answered. *)

Definition Engine_create : M value :=
  new_Engine (call NEngine_create [VBackend OPENGL]).

Definition Engine_destroy (engine : N) : M value :=
  _ ← call NEngine_destroy [addr_engine engine];
  mret VVoid.

Definition Engine_createSwapChain (this : N) : M value :=
  e ← get_engine this;
  call NEngine_createSwapChain [e; nullptr].

Definition Engine_destroySwapChain (this sc : N) : M value :=
  e ← get_engine this;
  _ ← call NEngine_destroy_SwapChain [e; VPtr TSwapChain sc];
  mret VVoid.

Definition Engine_createRenderer (this : N) : M value :=
  e ← get_engine this;
  call NEngine_createRenderer [e].

Definition Engine_destroyRenderer (this renderer : N) : M value :=
  e ← get_engine this;
  _ ← call NEngine_destroy_Renderer [e; VPtr TRenderer renderer];
  mret VVoid.

Definition Engine_createView (this : N) : M value :=
  e ← get_engine this;
  call NEngine_createView [e].

Definition Engine_destroyView (this view : N) : M value :=
  e ← get_engine this;
  _ ← call NEngine_destroy_View [e; VPtr TView view];
  mret VVoid.

Definition Engine_createScene (this : N) : M value :=
  e ← get_engine this;
  call NEngine_createScene [e].

Definition Engine_destroyScene (this scene : N) : M value :=
  e ← get_engine this;
  _ ← call NEngine_destroy_Scene [e; VPtr TScene scene];
  mret VVoid.

Definition Engine_createCamera (this : N) : M value :=
  e ← get_engine this;
  call NEngine_createCamera [e].

Definition Engine_destroyCamera (this camera : N) : M value :=
  e ← get_engine this;
  _ ← call NEngine_destroy_Camera [e; VPtr TCamera camera];
  mret VVoid.

Definition Engine_destroyEntity (this : N) (entity : N) : M value :=
  e ← get_engine this;
  _ ← call NEngine_destroy_Entity [e; VEntity entity];
  mret VVoid.

Definition Engine_destroyVertexBuffer (this vb : N) : M value :=
  e ← get_engine this;
  _ ← call NEngine_destroy_VertexBuffer [e; VPtr TVertexBuffer vb];
  mret VVoid.

(** ** The lambdas of [EMSCRIPTEN_BINDINGS(core_types)] and [(utils)] *)

(** The three [build] lambdas are declared [void]: what the builder
    returns is dropped. *)
Definition RenderBuilder_build (builder engine : N) (entity : N) : M value :=
  e ← get_engine engine;
  _ ← call NRenderBuilder_build [VPtr TRenderBuilder builder; e; VEntity entity];
  mret VVoid.

Definition RenderBuilder_boundingBox (builder : N) (box : Box) : M value :=
  call NRenderBuilder_boundingBox [VPtr TRenderBuilder builder; VBox box].

Definition RenderBuilder_culling (builder : N) (enable : bool) : M value :=
  call NRenderBuilder_culling [VPtr TRenderBuilder builder; VBool enable].

Definition RenderBuilder_receiveShadows (builder : N) (enable : bool) : M value :=
  call NRenderBuilder_receiveShadows [VPtr TRenderBuilder builder; VBool enable].

Definition RenderBuilder_castShadows (builder : N) (enable : bool) : M value :=
  call NRenderBuilder_castShadows [VPtr TRenderBuilder builder; VBool enable].

Definition RenderableManager_Builder (n : Z) : M value :=
  call NRenderBuilder_new [VInt n].

Definition VertexBuilder_build (builder engine : N) : M value :=
  e ← get_engine engine;
  _ ← call NVertexBuilder_build [VPtr TVertexBuilder builder; e];
  mret VVoid.

Definition VertexBuilder_vertexCount (builder : N) (count : Z) : M value :=
  call NVertexBuilder_vertexCount [VPtr TVertexBuilder builder; VInt count].

Definition VertexBuilder_bufferCount (builder : N) (count : Z) : M value :=
  call NVertexBuilder_bufferCount [VPtr TVertexBuilder builder; VInt count].

Definition VertexBuffer_Builder : M value :=
  call NVertexBuilder_new [].

Definition IndexBuilder_build (builder engine : N) : M value :=
  e ← get_engine engine;
  _ ← call NIndexBuilder_build [VPtr TIndexBuilder builder; e];
  mret VVoid.

Definition IndexBuffer_Builder : M value :=
  call NIndexBuilder_new [].

Definition EntityManager_get : M value :=
  call NEntityManager_get [].

(** ** Engine methods registered directly

    [render], [setScene], [setCamera], [addEntity] and the two selected
    overloads of [EntityManager] are bound by member pointer: invoking the
    exposed name is the engine call, on the receiver and arguments given.
    The parameters are those of the engine's declarations: a view, a scene,
    a camera, an entity, none ([utils::Entity()]) and an entity
    ([void(utils::Entity)]). *)

Definition Renderer_render (this view : N) : M value :=
  call NRenderer_render [VPtr TRenderer this; VPtr TView view].

Definition View_setScene (this scene : N) : M value :=
  call NView_setScene [VPtr TView this; VPtr TScene scene].

Definition View_setCamera (this camera : N) : M value :=
  call NView_setCamera [VPtr TView this; VPtr TCamera camera].

Definition Scene_addEntity (this : N) (entity : N) : M value :=
  call NScene_addEntity [VPtr TScene this; VEntity entity].

Definition EntityManager_create (this : N) : M value :=
  call NEntityManager_create [VPtr TEntityManager this].

Definition EntityManager_destroy (this : N) (entity : N) : M value :=
  call NEntityManager_destroy [VPtr TEntityManager this; VEntity entity].

(** ** Dispatch *)

Definition run (c : invocation) : M value :=
  match c with
  | Js_Engine_create => Engine_create
  | Js_Engine_destroy e => Engine_destroy e
  | Js_Engine_createSwapChain this => Engine_createSwapChain this
  | Js_Engine_destroySwapChain this sc => Engine_destroySwapChain this sc
  | Js_Engine_createRenderer this => Engine_createRenderer this
  | Js_Engine_destroyRenderer this r => Engine_destroyRenderer this r
  | Js_Engine_createView this => Engine_createView this
  | Js_Engine_destroyView this v => Engine_destroyView this v
  | Js_Engine_createScene this => Engine_createScene this
  | Js_Engine_destroyScene this sc => Engine_destroyScene this sc
  | Js_Engine_createCamera this => Engine_createCamera this
  | Js_Engine_destroyCamera this cam => Engine_destroyCamera this cam
  | Js_Engine_destroyEntity this en => Engine_destroyEntity this en
  | Js_Engine_destroyVertexBuffer this vb => Engine_destroyVertexBuffer this vb
  | Js_Renderer_render this v => Renderer_render this v
  | Js_View_setScene this sc => View_setScene this sc
  | Js_View_setCamera this cam => View_setCamera this cam
  | Js_Scene_addEntity this en => Scene_addEntity this en
  | Js_RenderBuilder_build b e en => RenderBuilder_build b e en
  | Js_RenderBuilder_boundingBox b box => RenderBuilder_boundingBox b box
  | Js_RenderBuilder_culling b on => RenderBuilder_culling b on
  | Js_RenderBuilder_receiveShadows b on => RenderBuilder_receiveShadows b on
  | Js_RenderBuilder_castShadows b on => RenderBuilder_castShadows b on
  | Js_RenderableManager_Builder n => RenderableManager_Builder n
  | Js_VertexBuilder_build b e => VertexBuilder_build b e
  | Js_VertexBuilder_vertexCount b n => VertexBuilder_vertexCount b n
  | Js_VertexBuilder_bufferCount b n => VertexBuilder_bufferCount b n
  | Js_VertexBuffer_Builder => VertexBuffer_Builder
  | Js_IndexBuilder_build b e => IndexBuilder_build b e
  | Js_IndexBuffer_Builder => IndexBuffer_Builder
  | Js_EntityManager_get => EntityManager_get
  | Js_EntityManager_create this => EntityManager_create this
  | Js_EntityManager_destroy this en => EntityManager_destroy this en
  end.

(** A chain [b.f(..).g(..)...]: each function is invoked on what the one
    before it returned. *)
Fixpoint chained (xs : list setting) (p : value) : M value :=
  match xs with
  | [] => mret p
  | x :: xs' =>
      match p with
      | VPtr _ b => r ← run (configure x b); chained xs' r
      | _ => λ _, Undefined
      end
  end.

(** A script: invocations made one after another from the scripting side,
    each seeing what the ones before left.  A failure ends it there. *)
Fixpoint script (cs : list invocation) : M (list value) :=
  match cs with
  | [] => mret []
  | c :: cs' => v ← run c; vs ← script cs'; mret (v :: vs)
  end.

(** Where an execution stopped, whether it returned or failed. *)
Definition final_state {A} (o : outcome A) : option state :=
  match o with
  | Ok _ s => Some s
  | Raise _ s => Some s
  | Undefined => None
  end.

Definition failure {A} (o : outcome A) : option E :=
  match o with
  | Raise e _ => Some e
  | _ => None
  end.

Definition returned {A} (o : outcome A) : option A :=
  match o with
  | Ok a _ => Some a
  | _ => None
  end.

End Shim.

Arguments Reply {W E} result stored next.
Arguments result {W E} r.
Arguments stored {W E} r.
Arguments next {W E} r.
Arguments State {W} wrappers world log.
Arguments wrappers {W} s.
Arguments world {W} s.
Arguments log {W} s.
Arguments Ok {W E A} a s.
Arguments Raise {W E A} e s.
Arguments Undefined {W E A}.
Arguments final_state {W E A} o.
Arguments failure {W E A} o.
Arguments returned {W E A} o.
Arguments run {W E} engine c s.
Arguments chained {W E} engine xs p s.
Arguments script {W E} engine cs s.

(** ** The registration table *)

Inductive binder := class_function | function.

Record member := Bind {
  how : binder;
  exposed : string;
  impl : symbol;
  allow_raw_pointers : bool }.

Inductive registration :=
  | value_array (name : string) (t : ctype) (elements : list string)
  | class_ (name : string) (t : ctype) (members : list member).

Definition value_types : list registration :=
  [ value_array "float3" TFloat3 ["x"; "y"; "z"];
    value_array "Box" TBox ["center"; "halfExtent"] ].

Definition core_types : list registration :=
  [ class_ "Engine" TWrapper
      [ Bind class_function "create" (Member M_create) true;
        Bind class_function "destroy" (Member M_destroy) true;
        Bind function "createSwapChain" (Member M_createSwapChain) true;
        Bind function "destroySwapChain" (Member M_destroySwapChain) true;
        Bind function "createRenderer" (Member M_createRenderer) true;
        Bind function "destroyRenderer" (Member M_destroyRenderer) true;
        Bind function "createView" (Member M_createView) true;
        Bind function "destroyView" (Member M_destroyView) true;
        Bind function "createScene" (Member M_createScene) true;
        Bind function "destroyScene" (Member M_destroyScene) true;
        Bind function "createCamera" (Member M_createCamera) true;
        Bind function "destroyCamera" (Member M_destroyCamera) true;
        Bind function "destroyEntity" (Member M_destroyEntity) false;
        Bind function "destroyVertexBuffer" (Member M_destroyVertexBuffer) true ];
    class_ "SwapChain" TSwapChain [];
    class_ "Renderer" TRenderer
      [ Bind function "render" (Native NRenderer_render) true ];
    class_ "View" TView
      [ Bind function "setScene" (Native NView_setScene) true;
        Bind function "setCamera" (Native NView_setCamera) true ];
    class_ "Scene" TScene
      [ Bind function "addEntity" (Native NScene_addEntity) false ];
    class_ "Camera" TCamera [];
    class_ "RenderableManager$Builder" TRenderBuilder
      [ Bind function "build" (Lambda L_RenderBuilder_build) true;
        Bind function "boundingBox" (Lambda L_RenderBuilder_boundingBox) true;
        Bind function "culling" (Lambda L_RenderBuilder_culling) true;
        Bind function "receiveShadows" (Lambda L_RenderBuilder_receiveShadows) true;
        Bind function "castShadows" (Lambda L_RenderBuilder_castShadows) true ];
    class_ "RenderableManager" TRenderableManager
      [ Bind class_function "Builder" (Lambda L_RenderableManager_Builder) false ];
    class_ "VertexBuffer$Builder" TVertexBuilder
      [ Bind function "build" (Lambda L_VertexBuilder_build) true;
        Bind function "vertexCount" (Lambda L_VertexBuilder_vertexCount) true;
        Bind function "bufferCount" (Lambda L_VertexBuilder_bufferCount) true ];
    class_ "VertexBuffer" TVertexBuffer
      [ Bind class_function "Builder" (Lambda L_VertexBuffer_Builder) false ];
    class_ "IndexBuffer$Builder" TIndexBuilder
      [ Bind function "build" (Lambda L_IndexBuilder_build) true ];
    class_ "IndexBuffer" TIndexBuffer
      [ Bind class_function "Builder" (Lambda L_IndexBuffer_Builder) false ] ].

Definition utils : list registration :=
  [ class_ "Entity" TEntity [];
    class_ "EntityManager" TEntityManager
      [ Bind class_function "get" (Lambda L_EntityManager_get) true;
        Bind function "create" (Native NEntityManager_create) false;
        Bind function "destroy" (Native NEntityManager_destroy) false ] ].

(** Everything the three blocks register, in source order. *)
Definition bindings : list registration := value_types ++ core_types ++ utils.

Definition registered_name (r : registration) : string :=
  match r with
  | value_array n _ _ => n
  | class_ n _ _ => n
  end.

Definition members_of (r : registration) : list member :=
  match r with
  | value_array _ _ _ => []
  | class_ _ _ ms => ms
  end.

(** The exported function table: class, exposed name, bound function. *)
Definition functions_of (r : registration) : list (string * string * symbol) :=
  (λ m, (registered_name r, exposed m, impl m)) <$> members_of r.

Definition table : list (string * string * symbol) :=
  concat (functions_of <$> bindings).

Definition qualified_names : list (string * string) := fst <$> table.

Definition bound (f : symbol) : bool :=
  bool_decide (f ∈ (snd <$> table)).

(** The class and name under which an invocation is made. *)
Definition site (c : invocation) : string * string :=
  match c with
  | Js_Engine_create => ("Engine", "create")
  | Js_Engine_destroy _ => ("Engine", "destroy")
  | Js_Engine_createSwapChain _ => ("Engine", "createSwapChain")
  | Js_Engine_destroySwapChain _ _ => ("Engine", "destroySwapChain")
  | Js_Engine_createRenderer _ => ("Engine", "createRenderer")
  | Js_Engine_destroyRenderer _ _ => ("Engine", "destroyRenderer")
  | Js_Engine_createView _ => ("Engine", "createView")
  | Js_Engine_destroyView _ _ => ("Engine", "destroyView")
  | Js_Engine_createScene _ => ("Engine", "createScene")
  | Js_Engine_destroyScene _ _ => ("Engine", "destroyScene")
  | Js_Engine_createCamera _ => ("Engine", "createCamera")
  | Js_Engine_destroyCamera _ _ => ("Engine", "destroyCamera")
  | Js_Engine_destroyEntity _ _ => ("Engine", "destroyEntity")
  | Js_Engine_destroyVertexBuffer _ _ => ("Engine", "destroyVertexBuffer")
  | Js_Renderer_render _ _ => ("Renderer", "render")
  | Js_View_setScene _ _ => ("View", "setScene")
  | Js_View_setCamera _ _ => ("View", "setCamera")
  | Js_Scene_addEntity _ _ => ("Scene", "addEntity")
  | Js_RenderBuilder_build _ _ _ => ("RenderableManager$Builder", "build")
  | Js_RenderBuilder_boundingBox _ _ => ("RenderableManager$Builder", "boundingBox")
  | Js_RenderBuilder_culling _ _ => ("RenderableManager$Builder", "culling")
  | Js_RenderBuilder_receiveShadows _ _ => ("RenderableManager$Builder", "receiveShadows")
  | Js_RenderBuilder_castShadows _ _ => ("RenderableManager$Builder", "castShadows")
  | Js_RenderableManager_Builder _ => ("RenderableManager", "Builder")
  | Js_VertexBuilder_build _ _ => ("VertexBuffer$Builder", "build")
  | Js_VertexBuilder_vertexCount _ _ => ("VertexBuffer$Builder", "vertexCount")
  | Js_VertexBuilder_bufferCount _ _ => ("VertexBuffer$Builder", "bufferCount")
  | Js_VertexBuffer_Builder => ("VertexBuffer", "Builder")
  | Js_IndexBuilder_build _ _ => ("IndexBuffer$Builder", "build")
  | Js_IndexBuffer_Builder => ("IndexBuffer", "Builder")
  | Js_EntityManager_get => ("EntityManager", "get")
  | Js_EntityManager_create _ => ("EntityManager", "create")
  | Js_EntityManager_destroy _ _ => ("EntityManager", "destroy")
  end.

(** The engine function each bound function forwards to (itself, for an
    engine method registered directly). *)
Definition target (f : symbol) : native :=
  match f with
  | Member M_create => NEngine_create
  | Member M_destroy => NEngine_destroy
  | Member M_createSwapChain => NEngine_createSwapChain
  | Member M_destroySwapChain => NEngine_destroy_SwapChain
  | Member M_createRenderer => NEngine_createRenderer
  | Member M_destroyRenderer => NEngine_destroy_Renderer
  | Member M_createView => NEngine_createView
  | Member M_destroyView => NEngine_destroy_View
  | Member M_createScene => NEngine_createScene
  | Member M_destroyScene => NEngine_destroy_Scene
  | Member M_createCamera => NEngine_createCamera
  | Member M_destroyCamera => NEngine_destroy_Camera
  | Member M_destroyEntity => NEngine_destroy_Entity
  | Member M_destroyVertexBuffer => NEngine_destroy_VertexBuffer
  | Lambda L_RenderBuilder_build => NRenderBuilder_build
  | Lambda L_RenderBuilder_boundingBox => NRenderBuilder_boundingBox
  | Lambda L_RenderBuilder_culling => NRenderBuilder_culling
  | Lambda L_RenderBuilder_receiveShadows => NRenderBuilder_receiveShadows
  | Lambda L_RenderBuilder_castShadows => NRenderBuilder_castShadows
  | Lambda L_RenderableManager_Builder => NRenderBuilder_new
  | Lambda L_VertexBuilder_build => NVertexBuilder_build
  | Lambda L_VertexBuilder_vertexCount => NVertexBuilder_vertexCount
  | Lambda L_VertexBuilder_bufferCount => NVertexBuilder_bufferCount
  | Lambda L_VertexBuffer_Builder => NVertexBuilder_new
  | Lambda L_IndexBuilder_build => NIndexBuilder_build
  | Lambda L_IndexBuffer_Builder => NIndexBuilder_new
  | Lambda L_EntityManager_get => NEntityManager_get
  | Native n => n
  end.

(** What an engine function brings into being or disposes of, by the
    engine's own interface: [Engine::create*] and the builders' [build]
    hand out a new object, [Engine::destroy] and [EntityManager::destroy]
    take one back. *)
Definition creates (n : native) : option resource :=
  match n with
  | NEngine_create => Some REngine
  | NEngine_createSwapChain => Some RSwapChain
  | NEngine_createRenderer => Some RRenderer
  | NEngine_createView => Some RView
  | NEngine_createScene => Some RScene
  | NEngine_createCamera => Some RCamera
  | NVertexBuilder_build => Some RVertexBuffer
  | NIndexBuilder_build => Some RIndexBuffer
  | NEntityManager_create => Some REntity
  | _ => None
  end.

Definition destroys (n : native) : option resource :=
  match n with
  | NEngine_destroy => Some REngine
  | NEngine_destroy_SwapChain => Some RSwapChain
  | NEngine_destroy_Renderer => Some RRenderer
  | NEngine_destroy_View => Some RView
  | NEngine_destroy_Scene => Some RScene
  | NEngine_destroy_Camera => Some RCamera
  | NEngine_destroy_VertexBuffer => Some RVertexBuffer
  | NEngine_destroy_Entity => Some REntity
  | NEntityManager_destroy => Some REntity
  | _ => None
  end.

(** Exposed functions that create, respectively destroy, a resource. *)
Definition creators (r : resource) : list (string * string) :=
  fst <$> filter (λ e, creates (target e.2) = Some r) table.

Definition destroyers (r : resource) : list (string * string) :=
  fst <$> filter (λ e, destroys (target e.2) = Some r) table.

(** The builder classes, and their exposed functions other than [build]. *)
Definition is_builder (t : ctype) : bool :=
  match t with
  | TRenderBuilder | TVertexBuilder | TIndexBuilder => true
  | _ => false
  end.

Definition builder_class (r : registration) : bool :=
  match r with
  | class_ _ t _ => is_builder t
  | value_array _ _ _ => false
  end.

Definition builders : list registration := List.filter builder_class bindings.

Definition configuration (r : registration) : list string :=
  filter (λ n, n ≠ "build") (exposed <$> members_of r).

(** ** What reaches the engine

    The arguments of the one engine call an invocation makes, in terms of
    the caller's: a wrapper handle gives way to the engine pointer it holds
    (to the address of that member, for [Engine.destroy]); [Engine.create]
    supplies the backend and [createSwapChain] a null native window. *)
Definition unwrap (h : heap) (v : value) : option value :=
  match v with
  | VPtr TWrapper a => VPtr TEngine <$> h !! a
  | _ => Some v
  end.

Definition forwarded (c : invocation) (h : heap) : option (list value) :=
  match c with
  | Js_Engine_create => Some [VBackend OPENGL]
  | Js_Engine_destroy e => Some [VPtr TEngineField e]
  | Js_Engine_createSwapChain _ =>
      args ← mapM (unwrap h) (args_of c); Some (app args [nullptr])
  | _ => mapM (unwrap h) (args_of c)
  end.

(** One invocation of every exposed function. *)
Definition one_of_each : list invocation :=
  let o := 0%N in
  let origin := {| x := 0%Z; y := 0%Z; z := 0%Z |} in
  let box := {| center := origin; halfExtent := origin |} in
  [ Js_Engine_create; Js_Engine_destroy o;
    Js_Engine_createSwapChain o; Js_Engine_destroySwapChain o o;
    Js_Engine_createRenderer o; Js_Engine_destroyRenderer o o;
    Js_Engine_createView o; Js_Engine_destroyView o o;
    Js_Engine_createScene o; Js_Engine_destroyScene o o;
    Js_Engine_createCamera o; Js_Engine_destroyCamera o o;
    Js_Engine_destroyEntity o o; Js_Engine_destroyVertexBuffer o o;
    Js_Renderer_render o o; Js_View_setScene o o; Js_View_setCamera o o;
    Js_Scene_addEntity o o;
    Js_RenderBuilder_build o o o; Js_RenderBuilder_boundingBox o box;
    Js_RenderBuilder_culling o false; Js_RenderBuilder_receiveShadows o false;
    Js_RenderBuilder_castShadows o false; Js_RenderableManager_Builder 0%Z;
    Js_VertexBuilder_build o o; Js_VertexBuilder_vertexCount o 0%Z;
    Js_VertexBuilder_bufferCount o 0%Z; Js_VertexBuffer_Builder;
    Js_IndexBuilder_build o o; Js_IndexBuffer_Builder;
    Js_EntityManager_get; Js_EntityManager_create o;
    Js_EntityManager_destroy o o ].

(** The wrapper handles among the arguments of an invocation. *)
Definition handles (c : invocation) : list N :=
  omap (λ v, match v with VPtr TWrapper a => Some a | _ => None end)
       (args_of c).

(** The engine's setters: the functions the configuration lambdas
    forward to. *)
Definition is_setter (f : native) : bool :=
  match f with
  | NRenderBuilder_boundingBox | NRenderBuilder_culling
  | NRenderBuilder_receiveShadows | NRenderBuilder_castShadows
  | NVertexBuilder_vertexCount | NVertexBuilder_bufferCount => true
  | _ => false
  end.

(** Modelled from the spec: the builders are the engine's and their setters
    are declared outside this file; "builder-pattern configuration calls" is
    read as every setter answering with a reference to the builder it was
    called on, its first argument, and never failing. *)
Definition fluent {W E} (engine : native → list value → heap → W → @reply W E) : Prop :=
  ∀ f args h w, is_setter f = true →
    result (engine f args h w) = inl (hd VVoid args).

(** ** A small engine to run the shim against

    Handles are numbered from a counter; nothing fails; the static
    [destroy] clears the pointer it is given; a builder's setters return
    the builder. *)
Definition toy_result (f : native) (args : list value) (n : N) : value :=
  match f with
  | NEngine_create => VPtr TEngine n
  | NEngine_createSwapChain => VPtr TSwapChain n
  | NEngine_createRenderer => VPtr TRenderer n
  | NEngine_createView => VPtr TView n
  | NEngine_createScene => VPtr TScene n
  | NEngine_createCamera => VPtr TCamera n
  | NRenderBuilder_new => VPtr TRenderBuilder n
  | NVertexBuilder_new => VPtr TVertexBuilder n
  | NIndexBuilder_new => VPtr TIndexBuilder n
  | NVertexBuilder_build => VPtr TVertexBuffer n
  | NIndexBuilder_build => VPtr TIndexBuffer n
  | NEntityManager_get => VPtr TEntityManager 1
  | NEntityManager_create => VEntity n
  | NRenderBuilder_boundingBox | NRenderBuilder_culling
  | NRenderBuilder_receiveShadows | NRenderBuilder_castShadows
  | NVertexBuilder_vertexCount | NVertexBuilder_bufferCount => hd VVoid args
  | _ => VVoid
  end.

Definition toy_engine (f : native) (args : list value) (h : heap)
    (n : N) : @reply N string :=
  Reply (inl (toy_result f args n))
        (match f with NEngine_destroy => Some 0%N | _ => None end)
        (N.succ n).

(** An engine that cannot create a context, and one whose setters hand
    back a copy of the builder. *)
Definition failing_engine (f : native) (args : list value) (h : heap)
    (n : N) : @reply N string :=
  match f with
  | NEngine_create => Reply (inr "no context") None n
  | _ => toy_engine f args h n
  end.

Definition copying_engine (f : native) (args : list value) (h : heap)
    (n : N) : @reply N string :=
  match f with
  | NRenderBuilder_culling => Reply (inl (VPtr TRenderBuilder n)) None (N.succ n)
  | _ => toy_engine f args h n
  end.

(** Before anything was created; with one engine wrapped at address 1;
    and the latter after [createSwapChain] on it. *)
Definition start : @state N := State ∅ 1%N [].

Definition running : @state N := State {[ 1%N := 7%N ]} 8%N [].

Definition after_createSwapChain : @state N :=
  State {[ 1%N := 7%N ]} 9%N
        [EvRead 1; EvCall NEngine_createSwapChain [VPtr TEngine 7; nullptr]].

Definition after_create : @state N :=
  State {[ 1%N := 1%N ]} 2%N
        [EvAlloc 1; EvCall NEngine_create [VBackend OPENGL]; EvNew 1 1].

Definition IndexBuffer_Builder_class : registration :=
  class_ "IndexBuffer$Builder" TIndexBuilder
    [ Bind function "build" (Lambda L_IndexBuilder_build) true ].

(** An engine whose [create] hands out a null pointer. *)
Definition null_engine (f : native) (args : list value) (h : heap)
    (n : N) : @reply N string :=
  match f with
  | NEngine_create => Reply (inl (VPtr TEngine 0)) None (N.succ n)
  | _ => toy_engine f args h n
  end.

(** States the toy engine reaches: after a second [Engine.create]; after
    [VertexBuffer$Builder.build] on builder 3; after a script of two. *)
Definition after_two_creates : @state N :=
  State {[ 1%N := 1%N; 2%N := 2%N ]} 3%N
        [EvAlloc 1; EvCall NEngine_create [VBackend OPENGL]; EvNew 1 1;
         EvAlloc 2; EvCall NEngine_create [VBackend OPENGL]; EvNew 2 2].

Definition after_build : @state N :=
  State {[ 1%N := 7%N ]} 9%N
        [EvRead 1;
         EvCall NVertexBuilder_build [VPtr TVertexBuilder 3; VPtr TEngine 7]].

Definition after_failed_create : @state N :=
  State ∅ 2%N
        [EvCall NVertexBuilder_new []; EvAlloc 1;
         EvCall NEngine_create [VBackend OPENGL]; EvFree 1].

Definition two_creations : list invocation :=
  [Js_Engine_createSwapChain 1; Js_Engine_createRenderer 1].

Definition after_two_creations : @state N :=
  State {[ 1%N := 7%N ]} 10%N
        [EvRead 1; EvCall NEngine_createSwapChain [VPtr TEngine 7; nullptr];
         EvRead 1; EvCall NEngine_createRenderer [VPtr TEngine 7]].

(** ** Signatures

    The functions this file defines, by what they are declared to return:
    the [destroy*] members and the three [build] lambdas are [void]. *)
Definition returns_void (f : symbol) : bool :=
  match f with
  | Member M_destroy | Member M_destroySwapChain | Member M_destroyRenderer
  | Member M_destroyView | Member M_destroyScene | Member M_destroyCamera
  | Member M_destroyEntity | Member M_destroyVertexBuffer
  | Lambda L_RenderBuilder_build | Lambda L_VertexBuilder_build
  | Lambda L_IndexBuilder_build => true
  | _ => false
  end.

(** Parameter and return types as the file writes them: in the member
    declarations of [filaweb::Engine] and in the function-pointer casts in
    front of the lambdas. *)
Inductive cxx_type :=
  | Void
  | Bool
  | Int
  | Pointer (t : ctype)
  | ByValue (t : ctype).

Definition is_pointer (t : cxx_type) : bool :=
  match t with Pointer _ => true | _ => false end.

(** Return type and explicit parameters ([this] is not one).  The engine's
    own methods are declared elsewhere and have no entry. *)
Definition signature (f : symbol) : option (cxx_type * list cxx_type) :=
  match f with
  | Member M_create => Some (Pointer TWrapper, [])
  | Member M_destroy => Some (Void, [Pointer TWrapper])
  | Member M_createSwapChain => Some (Pointer TSwapChain, [])
  | Member M_destroySwapChain => Some (Void, [Pointer TSwapChain])
  | Member M_createRenderer => Some (Pointer TRenderer, [])
  | Member M_destroyRenderer => Some (Void, [Pointer TRenderer])
  | Member M_createView => Some (Pointer TView, [])
  | Member M_destroyView => Some (Void, [Pointer TView])
  | Member M_createScene => Some (Pointer TScene, [])
  | Member M_destroyScene => Some (Void, [Pointer TScene])
  | Member M_createCamera => Some (Pointer TCamera, [])
  | Member M_destroyCamera => Some (Void, [Pointer TCamera])
  | Member M_destroyEntity => Some (Void, [ByValue TEntity])
  | Member M_destroyVertexBuffer => Some (Void, [Pointer TVertexBuffer])
  | Lambda L_RenderBuilder_build =>
      Some (Void, [Pointer TRenderBuilder; Pointer TWrapper; ByValue TEntity])
  | Lambda L_RenderBuilder_boundingBox =>
      Some (Pointer TRenderBuilder, [Pointer TRenderBuilder; ByValue TBox])
  | Lambda L_RenderBuilder_culling
  | Lambda L_RenderBuilder_receiveShadows
  | Lambda L_RenderBuilder_castShadows =>
      Some (Pointer TRenderBuilder, [Pointer TRenderBuilder; Bool])
  | Lambda L_RenderableManager_Builder => Some (ByValue TRenderBuilder, [Int])
  | Lambda L_VertexBuilder_build =>
      Some (Void, [Pointer TVertexBuilder; Pointer TWrapper])
  | Lambda L_VertexBuilder_vertexCount
  | Lambda L_VertexBuilder_bufferCount =>
      Some (Pointer TVertexBuilder, [Pointer TVertexBuilder; Int])
  | Lambda L_VertexBuffer_Builder => Some (ByValue TVertexBuilder, [])
  | Lambda L_IndexBuilder_build =>
      Some (Void, [Pointer TIndexBuilder; Pointer TWrapper])
  | Lambda L_IndexBuffer_Builder => Some (ByValue TIndexBuilder, [])
  | Lambda L_EntityManager_get => Some (Pointer TEntityManager, [])
  | Native _ => None
  end.

(** The functions called, in the order of the log. *)
Definition callees (l : list event) : list native :=
  omap (λ e, match e with EvCall f _ => Some f | _ => None end) l.

(** * Properties *)

Section Properties.

Context {W E : Type}.
Variable engine : native → list value → heap → W → @reply W E.

Implicit Types (c : invocation) (s : @state W).

Lemma calls_app (l k : list event) : calls (app l k) = app (calls l) (calls k).
Proof. apply List.filter_app. Qed.

Lemma own_accesses_app (l k : list event) :
  own_accesses (app l k) = app (own_accesses l) (own_accesses k).
Proof. apply List.filter_app. Qed.

(** Unfolds an invocation down to the wrapper it reads and the engine's
    answer, and splits on both. *)
Ltac unfold_shim :=
  unfold run, Engine_create, Engine_destroy, Engine_createSwapChain,
    Engine_destroySwapChain, Engine_createRenderer, Engine_destroyRenderer,
    Engine_createView, Engine_destroyView, Engine_createScene,
    Engine_destroyScene, Engine_createCamera, Engine_destroyCamera,
    Engine_destroyEntity, Engine_destroyVertexBuffer, RenderBuilder_build,
    RenderBuilder_boundingBox, RenderBuilder_culling,
    RenderBuilder_receiveShadows, RenderBuilder_castShadows,
    RenderableManager_Builder, VertexBuilder_build,
    VertexBuilder_vertexCount, VertexBuilder_bufferCount,
    VertexBuffer_Builder, IndexBuilder_build, IndexBuffer_Builder,
    EntityManager_get, Renderer_render, View_setScene, View_setCamera,
    Scene_addEntity, EntityManager_create, EntityManager_destroy,
    mbind, mret, M_bind, M_ret, call, get_engine, new_Engine, addr_engine.

Ltac split_wrapper :=
  repeat match goal with
         | |- context [wrappers ?s !! ?a] =>
             destruct (wrappers s !! a) eqn:?; simpl
         end.

Ltac split_answer :=
  repeat match goal with
         | |- context [result ?r] => destruct (result r) eqn:?; simpl
         end.

Ltac shim_cases c :=
  destruct c; simpl forwarded; simpl args_of; simpl symbol_of;
  simpl target; unfold_shim; simpl; split_wrapper.

(** An invocation that reads the member of what is no wrapper has no
    defined behaviour; any other reaches its call into the engine and ends
    with the engine's answer or failure. *)
Lemma undefined_iff c s :
  run engine c s = Undefined ↔ forwarded c (wrappers s) = None.
Proof.
  shim_cases c; split_answer; split; intros; (discriminate || reflexivity).
Qed.

Lemma ends_iff c s :
  is_Some (final_state (run engine c s)) ↔ is_Some (forwarded c (wrappers s)).
Proof.
  rewrite <- !not_eq_None_Some, <- undefined_iff.
  destruct (run engine c s); simpl; split; congruence.
Qed.

(** [C1], as amended.  Every invocation that has defined behaviour makes
    exactly one call into the engine, to the function its binding
    forwards to.  The arguments are the caller's, in order, except that a
    [filaweb::Engine] handle is replaced by the engine pointer the wrapper
    holds (by the address of that member for [Engine.destroy]), that
    [Engine.create] adds [Backend::OPENGL] and that [createSwapChain] adds
    a null native window. *)
Theorem forwards_once c s args :
  forwarded c (wrappers s) = Some args →
  ∃ s', final_state (run engine c s) = Some s' ∧
        calls (log s') =
          app (calls (log s)) [EvCall (target (symbol_of c)) args].
Proof.
  shim_cases c; intros [= <-]; split_answer.
  all: eexists; (split; [reflexivity|]); simpl.
  all: rewrite ?calls_app; simpl; rewrite ?app_nil_r; reflexivity.
Qed.

(** The log only grows, and what an invocation adds holds its one call. *)
Lemma run_log c s s' :
  final_state (run engine c s) = Some s' →
  ∃ args d, forwarded c (wrappers s) = Some args ∧
            log s' = app (log s) d ∧
            calls d = [EvCall (target (symbol_of c)) args].
Proof.
  shim_cases c; split_answer; intros [= <-]; simpl.
  all: rewrite <- ?app_assoc; eexists _, _; (split; [reflexivity|]).
  all: split; reflexivity.
Qed.

Lemma store_through_other args o (h : heap) a :
  VPtr TEngineField a ∉ args → store_through args o h !! a = h !! a.
Proof.
  destruct o as [p|]; [|reflexivity]. simpl.
  induction args as [|v args IH]; [reflexivity|].
  intros Hn. apply not_elem_of_cons in Hn as [Hv Hargs]. simpl.
  destruct v as [| | | | | |t b]; auto.
  destruct t; auto.
  rewrite lookup_alter_ne; [auto | congruence].
Qed.

Lemma store_through_dom args o (h : heap) :
  dom (store_through args o h) = dom h.
Proof.
  destruct o as [p|]; [|reflexivity]. simpl.
  induction args as [|v args IH]; [reflexivity|]. simpl.
  destruct v as [| | | | | |t b]; auto.
  destruct t; auto.
  by rewrite dom_alter_L.
Qed.

Lemma store_through_none args o (h : heap) :
  (∀ a, VPtr TEngineField a ∉ args) → store_through args o h = h.
Proof.
  intros Hn. apply map_eq. intros a. by apply store_through_other.
Qed.

Lemma fresh_addr_fresh (h : heap) : h !! fresh_addr h = None.
Proof.
  apply not_elem_of_dom. unfold fresh_addr.
  pose proof (is_fresh ({[0%N]} ∪ dom h)) as Hf. set_solver.
Qed.

Lemma fresh_addr_not_null (h : heap) : fresh_addr h ≠ 0%N.
Proof.
  unfold fresh_addr.
  pose proof (is_fresh ({[0%N]} ∪ dom h)) as Hf. set_solver.
Qed.

Ltac frame_heap :=
  repeat match goal with
         | |- context [store_through ?args ?o ?h] =>
             rewrite (store_through_none args o h)
               by (let H := fresh in
                   intros ? H;
                   repeat (apply elem_of_cons in H as [H|H];
                           [discriminate H|]);
                   by apply elem_of_nil in H)
         end.



(** [C8].  [Engine.create] calls [filament::Engine::create] once, with
    [Backend::OPENGL]; no argument of any invocation carries a backend;
    and whatever is invoked, a call to [filament::Engine::create] it makes
    has [Backend::OPENGL] for its only argument. *)
Theorem create_uses_OPENGL :
  (∀ s, ∃ s', final_state (run engine Js_Engine_create s) = Some s' ∧
              calls (log s') =
                app (calls (log s)) [EvCall NEngine_create [VBackend OPENGL]]) ∧
  (∀ c b, VBackend b ∉ args_of c) ∧
  (∀ c s s' d args,
     final_state (run engine c s) = Some s' →
     log s' = app (log s) d →
     EvCall NEngine_create args ∈ d → args = [VBackend OPENGL]).
Proof.
  split; [|split].
  - intros s. unfold_shim. simpl. split_answer.
    all: eexists; (split; [reflexivity|]); simpl.
    all: rewrite ?calls_app; simpl; by rewrite ?app_nil_r.
  - intros c b Hin. destruct c; simpl in Hin.
    all: repeat (apply elem_of_cons in Hin as [Hin|Hin]; [discriminate Hin|]).
    all: by apply elem_of_nil in Hin.
  - intros c s s' d args Hrun Hlog Hin.
    destruct (run_log c s s' Hrun) as (args' & d' & Hfwd & Hlog' & Hcalls).
    rewrite Hlog' in Hlog. apply app_inv_head in Hlog as ->.
    assert (EvCall NEngine_create args ∈ calls d) as Hc.
    { apply list_elem_of_In, List.filter_In. split; [|reflexivity].
      by apply list_elem_of_In. }
    rewrite Hcalls in Hc. apply list_elem_of_singleton in Hc.
    injection Hc as Hf ->.
    destruct c; try discriminate Hf. simpl in Hfwd. congruence.
Qed.


Lemma table_of_invocations :
  table = (λ c, (site c, symbol_of c)) <$> one_of_each.
Proof. reflexivity. Qed.

Lemma site_in_table c : (site c, symbol_of c) ∈ table.
Proof. destruct c; apply list_elem_of_In; simpl; tauto. Qed.

Lemma qualified_names_NoDup : NoDup qualified_names.
Proof. apply (bool_decide_unpack _). by vm_compute. Qed.

Lemma only_own_binding_is_bound c :
  bound (Native (target (symbol_of c))) = true →
  symbol_of c = Native (target (symbol_of c)).
Proof. destruct c; vm_compute; congruence. Qed.

Lemma target_inj c c' :
  target (symbol_of c) = target (symbol_of c') → symbol_of c = symbol_of c'.
Proof. destruct c, c'; simpl; intros H; (discriminate H || reflexivity). Qed.


(** What a setter invocation returns is what the engine's setter
    answered. *)
Lemma setter_returns_the_answer (x : setting) (b : N) s :
  let args := args_of (configure x b) in
  let f := target (symbol_of (configure x b)) in
  is_setter f = true ∧ hd VVoid args = VPtr (builder_of x) b ∧
  ∃ s', final_state (run engine (configure x b) s) = Some s' ∧
        log s' = app (log s) [EvCall f args] ∧
        match result (engine f args (wrappers s) (world s)) with
        | inl v => run engine (configure x b) s = Ok v s'
        | inr e => run engine (configure x b) s = Raise e s'
        end.
Proof.
  destruct x; simpl; (split; [reflexivity|]); (split; [reflexivity|]).
  all: unfold_shim; simpl; split_answer; eexists; done.
Qed.

(** [C9].  Given an engine whose setters answer with their builder, each
    of [boundingBox], [culling], [receiveShadows], [castShadows],
    [vertexCount] and [bufferCount] returns the builder pointer it was
    invoked on; hence a chain of them on one builder class returns that
    pointer too, and every engine call of the chain has it for receiver. *)
Theorem setters_return_their_builder :
  fluent engine →
  (∀ x b s, ∃ s', run engine (configure x b) s
                  = Ok (VPtr (builder_of x) b) s') ∧
  (∀ xs t b s,
     Forall (λ x, builder_of x = t) xs →
     ∃ s' d, chained engine xs (VPtr t b) s = Ok (VPtr t b) s' ∧
             log s' = app (log s) d ∧
             length d = length xs ∧
             Forall (λ ev, ∃ f rest, ev = EvCall f (VPtr t b :: rest)) d).
Proof.
  intros Hfl.
  assert (∀ x b s, ∃ s', run engine (configure x b) s
                         = Ok (VPtr (builder_of x) b) s' ∧
                         ∃ f rest, log s' = app (log s)
                                     [EvCall f (VPtr (builder_of x) b :: rest)])
    as Hone.
  { intros x b s.
    destruct (setter_returns_the_answer x b s)
      as (Hset & Hhd & s' & _ & Hlog & Hres).
    rewrite (Hfl _ _ _ _ Hset), Hhd in Hres.
    exists s'. split; [exact Hres|].
    rewrite Hlog. destruct x; simpl; by eexists _, _. }
  split.
  - intros x b s. destruct (Hone x b s) as (s' & Hrun & _). by exists s'.
  - intros xs t b s Hxs. revert s.
    induction Hxs as [|x xs Hx Hxs IH]; intros s.
    + exists s, []. simpl. by rewrite app_nil_r.
    + destruct (Hone x b s) as (s1 & Hrun & f & rest & Hlog1).
      destruct (IH s1) as (s' & d & Hch & Hlog & Hlen & Hd).
      exists s', (EvCall f (VPtr t b :: rest) :: d).
      simpl. unfold mbind, M_bind. rewrite Hrun, Hx, Hch.
      split; [reflexivity|]. rewrite Hlog, Hlog1, Hx, <- app_assoc.
      split; [reflexivity|]. split; [by rewrite Hlen|].
      constructor; [by eexists _, _ | exact Hd].
Qed.

(** ** Beyond the design notes: handles, return values, scripts *)

(** What an invocation leaves of a wrapper that was alive: the wrapper,
    and unless it is [Engine.destroy] of that very wrapper, its pointer. *)
Lemma run_heap c s s' :
  final_state (run engine c s) = Some s' →
  ∀ a p, wrappers s !! a = Some p →
         is_Some (wrappers s' !! a) ∧
         (c ≠ Js_Engine_destroy a → wrappers s' !! a = Some p).
Proof.
  shim_cases c; split_answer; intros [= <-] a p Ha; simpl; frame_heap.
  all: try (split; [by eexists | by intros _]).
  - assert (fresh_addr (wrappers s) ≠ a) as Hne.
    { intros <-. rewrite fresh_addr_fresh in Ha. discriminate Ha. }
    rewrite lookup_insert_ne by exact Hne. split; [by eexists | by intros _].
  - split.
    + apply elem_of_dom. rewrite store_through_dom. apply elem_of_dom.
      by eexists.
    + intros Hne. rewrite store_through_other; [exact Ha|].
      rewrite list_elem_of_singleton. congruence.
  - split.
    + apply elem_of_dom. rewrite store_through_dom. apply elem_of_dom.
      by eexists.
    + intros Hne. rewrite store_through_other; [exact Ha|].
      rewrite list_elem_of_singleton. congruence.
Qed.

Lemma create_inv s v s' :
  run engine Js_Engine_create s = Ok v s' →
  ∃ a, result (engine NEngine_create [VBackend OPENGL] (wrappers s) (world s))
         = inl a ∧
       v = VPtr TWrapper (fresh_addr (wrappers s)) ∧
       wrappers s' = <[fresh_addr (wrappers s) := address a]> (wrappers s) ∧
       world s' =
         next (engine NEngine_create [VBackend OPENGL] (wrappers s) (world s)).
Proof.
  unfold_shim. simpl. split_answer; intros [= <- <-]; simpl; frame_heap.
  by eexists.
Qed.

(** An invocation given a live wrapper, other than [Engine.destroy], runs
    and hands the wrapper's pointer to the engine. *)
Lemma handle_forwards_pointer c s (w p : N) :
  handles c = [w] → (∀ e, c ≠ Js_Engine_destroy e) →
  wrappers s !! w = Some p →
  ∃ s' args, final_state (run engine c s) = Some s' ∧
             calls (log s') =
               app (calls (log s)) [EvCall (target (symbol_of c)) args] ∧
             VPtr TEngine p ∈ args.
Proof.
  intros Hh Hd Hw.
  destruct c; simpl in Hh; try discriminate Hh;
    try (exfalso; by eapply Hd); injection Hh as ->.
  all: simpl symbol_of; simpl target; unfold_shim; simpl; rewrite Hw; simpl.
  all: split_answer; eexists _, _; (split; [reflexivity|]); simpl.
  all: rewrite ?calls_app; simpl; rewrite ?app_nil_r.
  all: split; [reflexivity | apply list_elem_of_In; simpl; tauto].
Qed.

(** [Engine.create] does not look at what the engine answered: whatever
    pointer [filament::Engine::create] returns, null included, a wrapper is
    allocated at a new, non-null address, holds that pointer, and is what
    the caller gets. *)
Theorem create_wraps_any_answer s v :
  result (engine NEngine_create [VBackend OPENGL] (wrappers s) (world s))
    = inl v →
  ∃ w s', run engine Js_Engine_create s = Ok (VPtr TWrapper w) s' ∧
          w ≠ 0%N ∧ wrappers s !! w = None ∧
          wrappers s' = <[w := address v]> (wrappers s).
Proof.
  intros Hv. exists (fresh_addr (wrappers s)).
  unfold_shim. simpl. rewrite Hv. simpl. frame_heap.
  eexists. split; [reflexivity|]. simpl.
  split; [apply fresh_addr_not_null|]. split; [apply fresh_addr_fresh|].
  reflexivity.
Qed.

(** Two calls of [Engine.create] give two wrappers, and the second leaves
    the first and its pointer alone. *)
Theorem creates_do_not_alias s v1 s1 v2 s2 :
  run engine Js_Engine_create s = Ok v1 s1 →
  run engine Js_Engine_create s1 = Ok v2 s2 →
  v1 ≠ v2 ∧
  ∃ w1, v1 = VPtr TWrapper w1 ∧ is_Some (wrappers s1 !! w1) ∧
        wrappers s2 !! w1 = wrappers s1 !! w1.
Proof.
  intros H1 H2.
  apply create_inv in H1 as (a1 & _ & -> & Hw1 & _).
  apply create_inv in H2 as (a2 & _ & -> & Hw2 & _).
  assert (wrappers s1 !! fresh_addr (wrappers s) = Some (address a1)) as Hl
    by (rewrite Hw1; apply lookup_insert_eq).
  assert (fresh_addr (wrappers s1) ≠ fresh_addr (wrappers s)) as Hne.
  { intros Heq. pose proof (fresh_addr_fresh (wrappers s1)) as Hf.
    rewrite Heq, Hl in Hf. discriminate Hf. }
  split; [congruence|]. eexists. split; [reflexivity|].
  split; [by eexists|]. rewrite Hw2. by apply lookup_insert_ne.
Qed.

(** What [Engine.create] stored is what later invocations on the wrapper
    pass on: the engine receives the very pointer it returned. *)
Theorem created_pointer_is_forwarded s v w s1 c :
  result (engine NEngine_create [VBackend OPENGL] (wrappers s) (world s))
    = inl v →
  run engine Js_Engine_create s = Ok (VPtr TWrapper w) s1 →
  handles c = [w] → (∀ e, c ≠ Js_Engine_destroy e) →
  ∃ s2 args, final_state (run engine c s1) = Some s2 ∧
             calls (log s2) =
               app (calls (log s1)) [EvCall (target (symbol_of c)) args] ∧
             VPtr TEngine (address v) ∈ args.
Proof.
  intros Hv Hrun Hh Hd.
  apply create_inv in Hrun as (a & Ha & [= ->] & Hw & _).
  rewrite Hv in Ha. injection Ha as <-.
  apply (handle_forwards_pointer c s1 _ _ Hh Hd).
  rewrite Hw. apply lookup_insert_eq.
Qed.

(** After [Engine.destroy] the wrapper is as usable as before.  It holds
    what the engine stored through the address it was given, or its old
    pointer if the engine stored nothing, and a later invocation on it
    passes that on without a check. *)
Theorem use_after_destroy (e p : N) s c :
  wrappers s !! e = Some p →
  handles c = [e] → (∀ e', c ≠ Js_Engine_destroy e') →
  let left_behind :=
    default p (stored (engine NEngine_destroy [VPtr TEngineField e]
                         (wrappers s) (world s))) in
  ∃ s1, final_state (run engine (Js_Engine_destroy e) s) = Some s1 ∧
        wrappers s1 !! e = Some left_behind ∧
        ∃ s2 args, final_state (run engine c s1) = Some s2 ∧
                   calls (log s2) =
                     app (calls (log s1))
                         [EvCall (target (symbol_of c)) args] ∧
                   VPtr TEngine left_behind ∈ args.
Proof.
  intros He Hh Hd left_behind.
  assert (∃ s1, final_state (run engine (Js_Engine_destroy e) s) = Some s1 ∧
                wrappers s1 !! e = Some left_behind) as (s1 & Hrun & Hl).
  { unfold_shim. simpl. subst left_behind.
    split_answer; eexists; (split; [reflexivity|]); simpl.
    all: destruct (stored _) as [q|]; simpl; [|exact He].
    all: rewrite lookup_alter_eq, He; reflexivity. }
  exists s1. split; [exact Hrun|]. split; [exact Hl|].
  exact (handle_forwards_pointer c s1 _ _ Hh Hd Hl).
Qed.


(** What comes back.  A function declared [void] returns nothing whatever
    the engine answered, so the buffer a [build] created is not handed to
    the caller.  [Engine.create] returns its new wrapper.  Every other
    invocation returns the engine's answer untouched. *)
Theorem what_is_returned c s args v s' :
  forwarded c (wrappers s) = Some args →
  run engine c s = Ok v s' →
  (returns_void (symbol_of c) = true → v = VVoid) ∧
  (c = Js_Engine_create →
     ∃ w, v = VPtr TWrapper w ∧ wrappers s !! w = None) ∧
  (returns_void (symbol_of c) = false → c ≠ Js_Engine_create →
     result (engine (target (symbol_of c)) args (wrappers s) (world s))
       = inl v).
Proof.
  shim_cases c; intros [= <-]; split_answer; intros [= <- <-].
  all: split; [intros Hv; first [discriminate Hv | reflexivity]|].
  all: split; [intros Hc; try discriminate Hc|].
  all: try (intros Hv Hc; first [discriminate Hv | by destruct Hc | reflexivity]).
  frame_heap. eexists. split; [reflexivity | apply fresh_addr_fresh].
Qed.


Lemma callees_app (l k : list event) :
  callees (app l k) = app (callees l) (callees k).
Proof. apply omap_app. Qed.

Lemma callees_calls (l : list event) : callees (calls l) = callees l.
Proof.
  induction l as [|[f args|a p|a|a|a] l IH]; simpl; try done.
  unfold callees in *. simpl. by rewrite IH.
Qed.

Lemma run_callees c s s' :
  final_state (run engine c s) = Some s' →
  ∃ d, log s' = app (log s) d ∧ callees d = [target (symbol_of c)].
Proof.
  intros Hrun.
  destruct (run_log c s s' Hrun) as (args & d & _ & Hlog & Hcalls).
  exists d. split; [exact Hlog|]. by rewrite <- callees_calls, Hcalls.
Qed.


(** No script releases a wrapper; and a wrapper's engine pointer stays
    what it was as long as the script does not invoke [Engine.destroy] on
    that wrapper. *)
Theorem script_keeps_wrappers cs s s' (a p : N) :
  final_state (script engine cs s) = Some s' →
  wrappers s !! a = Some p →
  is_Some (wrappers s' !! a) ∧
  (Js_Engine_destroy a ∉ cs → wrappers s' !! a = Some p).
Proof.
  revert s p. induction cs as [|c cs IH]; intros s p.
  - intros [= <-] Ha. split; [by eexists | by intros _].
  - simpl. unfold mbind, M_bind.
    destruct (run engine c s) as [v s1|e s1|] eqn:Hrun; [| |discriminate].
    + intros Hend Ha.
      assert (final_state (script engine cs s1) = Some s') as Hend'.
      { destruct (script engine cs s1); simpl in *; congruence. }
      destruct (run_heap c s s1) with (a := a) (p := p) as [[q Hq] Hsame];
        [by rewrite Hrun | exact Ha|].
      destruct (IH s1 q Hend' Hq) as [Hlive Hkeep].
      split; [exact Hlive|]. intros Hnd.
      apply not_elem_of_cons in Hnd as [Hc Hcs].
      rewrite (Hsame (not_eq_sym Hc)) in Hq. injection Hq as <-.
      by apply Hkeep.
    + simpl. intros [= <-] Ha.
      destruct (run_heap c s s1) with (a := a) (p := p) as [Hlive Hsame];
        [by rewrite Hrun | exact Ha|].
      split; [exact Hlive|]. intros Hnd.
      apply not_elem_of_cons in Hnd as [Hc _]. by apply Hsame.
Qed.

End Properties.

(** ** The table alone *)

(** [C2], as amended.  The table has a function that creates and one that
    destroys each of engine, swap chain, renderer, view, scene, camera,
    vertex buffer and entity.  For index buffers it has one that creates,
    [IndexBuffer$Builder.build], and none that destroys. *)
Theorem create_destroy_pairs (r : resource) :
  creators r ≠ [] ∧ (destroyers r = [] ↔ r = RIndexBuffer).
Proof.
  destruct r; vm_compute; (split; [discriminate|]); split; congruence.
Qed.

(** [C3], as amended.  The builder classes are the three expected.  Each
    exposes [build]; [RenderableManager$Builder] has four configuration
    functions and [VertexBuffer$Builder] two; [IndexBuffer$Builder] has
    none. *)
Theorem builder_configuration :
  registered_name <$> builders =
    ["RenderableManager$Builder"; "VertexBuffer$Builder"; "IndexBuffer$Builder"] ∧
  configuration <$> builders =
    [ ["boundingBox"; "culling"; "receiveShadows"; "castShadows"];
      ["vertexCount"; "bufferCount"];
      [] ] ∧
  ∀ r, r ∈ builders →
       "build" ∈ (exposed <$> members_of r) ∧
       (configuration r = [] ↔ registered_name r = "IndexBuffer$Builder").
Proof.
  split; [reflexivity|]. split; [reflexivity|].
  intros r Hr. apply list_elem_of_In in Hr. vm_compute in Hr.
  destruct Hr as [<-|[<-|[<-|[]]]].
  all: split; [apply list_elem_of_In; simpl; tauto|].
  all: vm_compute; split; congruence.
Qed.

(** ** Statements of the design notes that do not hold as written *)

(** [C1] as stated fails: [Engine.create] is invoked without arguments and
    calls the engine with one. *)
Lemma same_arguments_refuted :
  ¬ (∀ c s s', final_state (run toy_engine c s) = Some s' →
               ∃ f, calls (log s') = app (calls (log s)) [EvCall f (args_of c)]).
Proof.
  intros H.
  edestruct (H Js_Engine_create start) as [f Hf]; [reflexivity|].
  vm_compute in Hf. discriminate Hf.
Qed.

(** [C2] as stated fails: nothing exposed destroys an index buffer. *)
Lemma index_buffer_without_destroy :
  ¬ (∀ r, creators r ≠ [] ∧ destroyers r ≠ []).
Proof.
  intros H. destruct (H RIndexBuffer) as [_ Hd]. by apply Hd.
Qed.

(** [C3] as stated fails: [IndexBuffer$Builder] offers [build] only. *)
Lemma index_builder_without_configuration :
  ¬ (∀ r, r ∈ builders → configuration r ≠ []).
Proof.
  intros H. apply (H IndexBuffer_Builder_class); [|reflexivity].
  apply list_elem_of_In. vm_compute. tauto.
Qed.


(** ** Instances *)

(** Without a fluent engine the lambdas return whatever reference the
    engine's setter gave: here a copy, not builder 5. *)
Lemma copying_setter_returns_the_copy :
  returned (run copying_engine (Js_RenderBuilder_culling 5 true) start)
    = Some (VPtr TRenderBuilder 1).
Proof. reflexivity. Qed.

Lemma forwards_once_witness :
  forwarded (Js_Engine_createSwapChain 1) (wrappers running)
    = Some [VPtr TEngine 7; nullptr] ∧
  ∃ s', final_state (run toy_engine (Js_Engine_createSwapChain 1) running)
          = Some s' ∧
        calls (log s') =
          app (calls (log running))
              [EvCall NEngine_createSwapChain [VPtr TEngine 7; nullptr]].
Proof.
  split; [reflexivity|].
  apply (forwards_once toy_engine (Js_Engine_createSwapChain 1) running).
  reflexivity.
Defined.



Lemma create_uses_OPENGL_witness :
  final_state (run toy_engine Js_Engine_create start) = Some after_create ∧
  log after_create = app (log start) (log after_create) ∧
  EvCall NEngine_create [VBackend OPENGL] ∈ log after_create ∧
  [VBackend OPENGL] = [VBackend OPENGL].
Proof.
  assert (EvCall NEngine_create [VBackend OPENGL] ∈ log after_create) as Hin
    by (apply list_elem_of_In; simpl; tauto).
  split; [reflexivity|]. split; [reflexivity|]. split; [exact Hin|].
  apply (proj2 (proj2 (create_uses_OPENGL toy_engine))
           Js_Engine_create start after_create (log after_create));
    [reflexivity | reflexivity | exact Hin].
Defined.


Lemma toy_engine_fluent : fluent toy_engine.
Proof. intros f args h w Hf. destruct f; (discriminate Hf || reflexivity). Defined.

Lemma setters_return_their_builder_witness :
  fluent toy_engine ∧
  Forall (λ x, builder_of x = TRenderBuilder) [culling true; castShadows false] ∧
  ∃ s' d, chained toy_engine [culling true; castShadows false]
            (VPtr TRenderBuilder 5) start = Ok (VPtr TRenderBuilder 5) s' ∧
          log s' = app (log start) d ∧
          length d = 2 ∧
          Forall (λ ev, ∃ f rest, ev = EvCall f (VPtr TRenderBuilder 5 :: rest)) d.
Proof.
  assert (Forall (λ x, builder_of x = TRenderBuilder)
                 [culling true; castShadows false]) as Hxs
    by (repeat constructor).
  split; [exact toy_engine_fluent|]. split; [exact Hxs|].
  apply (proj2 (setters_return_their_builder toy_engine toy_engine_fluent)
           [culling true; castShadows false] TRenderBuilder 5%N start Hxs).
Defined.

Lemma builder_configuration_witness :
  IndexBuffer_Builder_class ∈ builders ∧
  "build" ∈ (exposed <$> members_of IndexBuffer_Builder_class) ∧
  (configuration IndexBuffer_Builder_class = [] ↔
   registered_name IndexBuffer_Builder_class = "IndexBuffer$Builder").
Proof.
  assert (IndexBuffer_Builder_class ∈ builders) as Hin
    by (apply list_elem_of_In; vm_compute; tauto).
  split; [exact Hin|].
  apply (proj2 (proj2 builder_configuration) IndexBuffer_Builder_class Hin).
Defined.

(** ** More on the table *)

(** [allow_raw_pointers] is given to exactly those functions of this file
    whose signature has a raw pointer, as a parameter or as the result. *)
Theorem raw_pointer_policy r m ret params :
  r ∈ bindings → m ∈ members_of r →
  signature (impl m) = Some (ret, params) →
  allow_raw_pointers m = existsb is_pointer (ret :: params).
Proof.
  intros Hr Hm. apply list_elem_of_In in Hr.
  unfold bindings, value_types, core_types, utils in Hr. simpl in Hr.
  repeat (destruct Hr as [<-|Hr]); try destruct Hr.
  all: apply list_elem_of_In in Hm; simpl in Hm.
  all: repeat (destruct Hm as [<-|Hm]); try destruct Hm.
  all: simpl; intros [= <- <-]; reflexivity.
Qed.

(** ** More instances *)

Lemma create_wraps_any_answer_witness :
  result (null_engine NEngine_create [VBackend OPENGL]
            (wrappers start) (world start)) = inl (VPtr TEngine 0) ∧
  ∃ w s', run null_engine Js_Engine_create start = Ok (VPtr TWrapper w) s' ∧
          w ≠ 0%N ∧ wrappers start !! w = None ∧
          wrappers s' = <[w := 0%N]> (wrappers start).
Proof.
  split; [reflexivity|].
  apply (create_wraps_any_answer null_engine start (VPtr TEngine 0)).
  reflexivity.
Defined.

Lemma creates_do_not_alias_witness :
  run toy_engine Js_Engine_create start = Ok (VPtr TWrapper 1) after_create ∧
  run toy_engine Js_Engine_create after_create
    = Ok (VPtr TWrapper 2) after_two_creates ∧
  VPtr TWrapper 1 ≠ VPtr TWrapper 2 ∧
  ∃ w1, VPtr TWrapper 1 = VPtr TWrapper w1 ∧
        is_Some (wrappers after_create !! w1) ∧
        wrappers after_two_creates !! w1 = wrappers after_create !! w1.
Proof.
  assert (run toy_engine Js_Engine_create start
          = Ok (VPtr TWrapper 1) after_create) as H1 by reflexivity.
  assert (run toy_engine Js_Engine_create after_create
          = Ok (VPtr TWrapper 2) after_two_creates) as H2
    by (vm_compute; reflexivity).
  split; [exact H1|]. split; [exact H2|].
  exact (creates_do_not_alias toy_engine start _ after_create _
           after_two_creates H1 H2).
Defined.

Lemma created_pointer_is_forwarded_witness :
  result (toy_engine NEngine_create [VBackend OPENGL]
            (wrappers start) (world start)) = inl (VPtr TEngine 1) ∧
  run toy_engine Js_Engine_create start = Ok (VPtr TWrapper 1) after_create ∧
  handles (Js_Engine_createSwapChain 1) = [1%N] ∧
  ∃ s2 args,
    final_state (run toy_engine (Js_Engine_createSwapChain 1) after_create)
      = Some s2 ∧
    calls (log s2) =
      app (calls (log after_create)) [EvCall NEngine_createSwapChain args] ∧
    VPtr TEngine 1 ∈ args.
Proof.
  split; [reflexivity|]. split; [reflexivity|]. split; [reflexivity|].
  apply (created_pointer_is_forwarded toy_engine start (VPtr TEngine 1) 1%N
           after_create (Js_Engine_createSwapChain 1));
    [reflexivity | reflexivity | reflexivity | discriminate].
Defined.

Lemma use_after_destroy_witness :
  wrappers running !! 1%N = Some 7%N ∧
  handles (Js_Engine_createSwapChain 1) = [1%N] ∧
  ∃ s1, final_state (run toy_engine (Js_Engine_destroy 1) running) = Some s1 ∧
        wrappers s1 !! 1%N = Some 0%N ∧
        ∃ s2 args,
          final_state (run toy_engine (Js_Engine_createSwapChain 1) s1)
            = Some s2 ∧
          calls (log s2) =
            app (calls (log s1)) [EvCall NEngine_createSwapChain args] ∧
          VPtr TEngine 0 ∈ args.
Proof.
  split; [reflexivity|]. split; [reflexivity|].
  apply (use_after_destroy toy_engine 1%N 7%N running
           (Js_Engine_createSwapChain 1));
    [reflexivity | reflexivity | discriminate].
Defined.


Lemma what_is_returned_witness :
  forwarded (Js_VertexBuilder_build 3 1) (wrappers running)
    = Some [VPtr TVertexBuilder 3; VPtr TEngine 7] ∧
  run toy_engine (Js_VertexBuilder_build 3 1) running = Ok VVoid after_build ∧
  result (toy_engine NVertexBuilder_build
            [VPtr TVertexBuilder 3; VPtr TEngine 7]
            (wrappers running) (world running))
    = inl (VPtr TVertexBuffer 8) ∧
  (returns_void (symbol_of (Js_VertexBuilder_build 3 1)) = true →
   VVoid = VVoid).
Proof.
  split; [reflexivity|]. split; [reflexivity|]. split; [reflexivity|].
  apply (what_is_returned toy_engine (Js_VertexBuilder_build 3 1) running
           [VPtr TVertexBuilder 3; VPtr TEngine 7] VVoid after_build);
    reflexivity.
Defined.


Lemma script_keeps_wrappers_witness :
  final_state (script toy_engine two_creations running)
    = Some after_two_creations ∧
  wrappers running !! 1%N = Some 7%N ∧
  is_Some (wrappers after_two_creations !! 1%N) ∧
  (Js_Engine_destroy 1 ∉ two_creations →
   wrappers after_two_creations !! 1%N = Some 7%N).
Proof.
  split; [reflexivity|]. split; [reflexivity|].
  apply (script_keeps_wrappers toy_engine two_creations running
           after_two_creations 1%N 7%N); reflexivity.
Defined.

Lemma raw_pointer_policy_witness :
  IndexBuffer_Builder_class ∈ bindings ∧
  Bind function "build" (Lambda L_IndexBuilder_build) true
    ∈ members_of IndexBuffer_Builder_class ∧
  signature (Lambda L_IndexBuilder_build)
    = Some (Void, [Pointer TIndexBuilder; Pointer TWrapper]) ∧
  true = existsb is_pointer [Void; Pointer TIndexBuilder; Pointer TWrapper].
Proof.
  assert (IndexBuffer_Builder_class ∈ bindings) as Hr
    by (apply list_elem_of_In; vm_compute; tauto).
  assert (Bind function "build" (Lambda L_IndexBuilder_build) true
            ∈ members_of IndexBuffer_Builder_class) as Hm
    by (apply list_elem_of_In; simpl; tauto).
  split; [exact Hr|]. split; [exact Hm|]. split; [reflexivity|].
  exact (raw_pointer_policy IndexBuffer_Builder_class _ _ _ Hr Hm eq_refl).
Defined.
